(** * gcloud.pubsub.connection: the Pub/Sub JSON connection

    A shallow embedding of [gcloud/pubsub/connection.py].  The module is a
    thin binding over a REST API: a constructor that resolves the base
    URL, a URL builder, and six methods that each shape one request and
    hand it to the inherited [api_request] primitive.

    Python byte strings are [string]; dictionaries are [gmap string _];
    methods are computations in a state-and-exception monad whose state
    holds the receiver [self], the process environment and the trace of
    I/O events performed so far. *)

From Stdlib Require Import ZArith NArith Ascii String.
From stdpp Require Import base option list strings gmap fin_maps pretty.

Local Open Scope string_scope.
Local Set Warnings "-register-all".

(** ** Python values *)

(** Decoded JSON and the other values that travel through this module. *)
Inductive value : Type :=
| VNone
| VBool (b : bool)
| VInt (z : Z)
| VStr (s : string)
| VList (l : list value)
| VTuple (l : list value)
| VDict (d : gmap string value).

(** Values of query parameters: the documented types of [page_size] (int)
    and [page_token] (string). *)
Inductive scalar : Type :=
| SInt (z : Z)
| SStr (s : string).

(** Exceptions that can surface from the code modelled here.
    [RequestError] is the failure category of the request primitive. *)
Inductive exn : Type :=
| TypeError
| ValueError
| KeyError (key : string)
| AttributeError (attr : string)
| RequestError (detail : string).

Inductive Result (A : Type) : Type :=
| Ok (a : A)
| Raise (e : exn).
Arguments Ok {A} a.
Arguments Raise {A} e.

Definition Result_map {A B : Type} (f : A → B) (r : Result A) : Result B :=
  match r with
  | Ok a => Ok (f a)
  | Raise e => Raise e
  end.

Definition Result_bind {A B : Type} (f : A → Result B) (r : Result A) : Result B :=
  match r with
  | Ok a => f a
  | Raise e => Raise e
  end.

(** ** String formatting *)

(** [template % args] for templates whose only conversions are [%s]
    (and the escape [%%]), applied to a tuple of strings. *)
Fixpoint percent_format (template : string) (args : list string) : Result string :=
  match template with
  | EmptyString =>
      match args with
      | [] => Ok ""
      | _ :: _ => Raise TypeError
      end
  | String c rest =>
      if Ascii.eqb c "%" then
        match rest with
        | EmptyString => Raise ValueError
        | String d rest' =>
            if Ascii.eqb d "s" then
              match args with
              | [] => Raise TypeError
              | a :: args' => Result_map (String.append a) (percent_format rest' args')
              end
            else if Ascii.eqb d "%" then
              Result_map (String "%") (percent_format rest' args)
            else Raise ValueError
        end
      else Result_map (String c) (percent_format rest args)
  end.

(** [template.format] with keyword arguments, for templates whose
    replacement fields are plain names, [{name}].  [field] is [Some acc]
    while the scan is inside a pair of braces. *)
Fixpoint str_format_from (kwargs : gmap string string) (field : option string)
    (template : string) : Result string :=
  match template with
  | EmptyString =>
      match field with
      | None => Ok ""
      | Some _ => Raise ValueError
      end
  | String c rest =>
      match field with
      | None =>
          if Ascii.eqb c "{" then str_format_from kwargs (Some "") rest
          else if Ascii.eqb c "}" then Raise ValueError
          else Result_map (String c) (str_format_from kwargs None rest)
      | Some name =>
          if Ascii.eqb c "}" then
            match kwargs !! name with
            | Some v => Result_map (String.append v) (str_format_from kwargs None rest)
            | None => Raise (KeyError name)
            end
          else str_format_from kwargs (Some (name ++ String c "")) rest
      end
  end.

Definition str_format (template : string) (kwargs : gmap string string) : Result string :=
  str_format_from kwargs None template.

(** ** Percent-encoding of query strings *)

Definition in_range (lo hi c : ascii) : bool :=
  (N_of_ascii lo <=? N_of_ascii c)%N && (N_of_ascii c <=? N_of_ascii hi)%N.

(** Characters that are never quoted: letters, digits and [_.-]. *)
Definition always_safe (c : ascii) : bool :=
  in_range "A" "Z" c || in_range "a" "z" c || in_range "0" "9" c
  || Ascii.eqb c "_" || Ascii.eqb c "." || Ascii.eqb c "-".

Definition hex_digit (n : N) : ascii :=
  if (n <? 10)%N then ascii_of_N (48 + n) else ascii_of_N (55 + n).

Definition quote_char (c : ascii) : string :=
  if always_safe c then String c ""
  else if Ascii.eqb c " " then "+"
  else String "%" (String (hex_digit (N_of_ascii c / 16))
                     (String (hex_digit (N_of_ascii c mod 16)) "")).

Fixpoint quote_plus (s : string) : string :=
  match s with
  | EmptyString => ""
  | String c rest => quote_char c ++ quote_plus rest
  end.

Definition str_of_scalar (v : scalar) : string :=
  match v with
  | SInt z => pretty z
  | SStr s => s
  end.

Definition urlencode_pair (kv : string * scalar) : string :=
  quote_plus kv.1 ++ "=" ++ quote_plus (str_of_scalar kv.2).

(** [urlencode(query)]: one [key=value] pair per entry, joined by [&].
    The entries are visited in the map's own (fixed) order. *)
Definition urlencode (query : gmap string scalar) : string :=
  String.concat "&" (urlencode_pair <$> map_to_list query).

(** ** The state-and-exception monad *)

(** A computation over a state [S]: it ends by returning or by raising,
    and in both cases leaves a state behind. *)
Definition M (S A : Type) : Type := S → Result A * S.

Definition M_ret {S A : Type} (a : A) : M S A := λ s, (Ok a, s).

Definition M_bind {S A B : Type} (m : M S A) (k : A → M S B) : M S B :=
  λ s, match m s with
       | (Ok a, s') => k a s'
       | (Raise e, s') => (Raise e, s')
       end.

Definition M_raise {S A : Type} (e : exn) : M S A := λ s, (Raise e, s).

Definition M_gets {S A : Type} (f : S → A) : M S A := λ s, (Ok (f s), s).

(** A pure step that may raise. *)
Definition M_lift {S A : Type} (r : Result A) : M S A := λ s, (r, s).

Declare Scope py_scope.
Delimit Scope py_scope with py.
Notation "x <- m ;; k" := (M_bind m (λ x, k))
  (at level 100, m at next level, right associativity) : py_scope.

(** ** The connection and its surroundings *)

(** The instance attributes: the two handles stored by the base
    constructor and the base URL stored by this class. *)
Record Connection (Credentials Http : Type) : Type := mkConnection {
  credentials : option Credentials;
  http : option Http;
  api_base_url : string;
}.
Arguments mkConnection {Credentials Http} _ _ _.
Arguments credentials {Credentials Http} _.
Arguments http {Credentials Http} _.
Arguments api_base_url {Credentials Http} _.

(** The keyword arguments that this module passes to [api_request];
    an argument that is not passed is [None]. *)
Record Request : Type := mkRequest {
  method : string;
  path : string;
  query_params : option (gmap string scalar);
  data : option value;
}.

(** Observable I/O: a read of the process environment, or a request
    handed to the request primitive. *)
Inductive Event : Type :=
| EvGetenv (name : string)
| EvRequest (req : Request).

(** The process: [os.environ], the state of everything behind the
    transport, and the I/O performed so far (oldest first). *)
Record Proc (Net : Type) : Type := mkProc {
  environ : gmap string string;
  net : Net;
  trace : list Event;
}.
Arguments mkProc {Net} _ _ _.
Arguments environ {Net} _.
Arguments net {Net} _.
Arguments trace {Net} _.

(** The state a method runs in: its receiver and the process. *)
Record Obj (Credentials Http Net : Type) : Type := mkObj {
  self : Connection Credentials Http;
  proc : Proc Net;
}.
Arguments mkObj {Credentials Http Net} _ _.
Arguments self {Credentials Http Net} _.
Arguments proc {Credentials Http Net} _.

Definition emit {Net : Type} (ev : Event) (p : Proc Net) : Proc Net :=
  mkProc (environ p) (net p) (trace p ++ [ev]).

(** [os.getenv(name)]: [None] when the variable is unset. *)
Definition os_getenv {Net : Type} (name : string) : M (Proc Net) (option string) :=
  λ p, (Ok (environ p !! name), emit (EvGetenv name) p).

(** ** Class attributes *)

Definition API_BASE_URL : string := "https://pubsub.googleapis.com".
Definition API_VERSION : string := "v1".
Definition API_URL_TEMPLATE : string := "{api_base_url}/{api_version}{path}".
Definition SCOPE : list string :=
  ["https://www.googleapis.com/auth/pubsub";
   "https://www.googleapis.com/auth/cloud-platform"].

Section Connection.

Context {Credentials Http Net : Type}.

(** The name of the emulator variable, imported from
    [gcloud.environment_vars]. *)
Variable PUBSUB_EMULATOR : string.

(** The request primitive inherited from the base connection: it sees
    the receiver and the state behind the transport, answers with the
    decoded response or raises, and leaves both behind. *)
Variable transport :
  Request → Connection Credentials Http → Net →
  Result value * Connection Credentials Http * Net.

Local Open Scope py_scope.

(** Modelled from the spec: the base class constructor, which is not in
    this file; it stores the credentials and the transport handle. *)
Definition JSONConnection_init (credentials : option Credentials) (http : option Http)
    : M (Proc Net) (option Credentials * option Http) :=
  M_ret (credentials, http).

(** [Connection.__init__] *)
Definition Connection_init (credentials : option Credentials) (http : option Http)
    (api_base_url : option string) : M (Proc Net) (Connection Credentials Http) :=
  base <- JSONConnection_init credentials http ;;
  api_base_url <-
    match api_base_url with
    | None =>
        emulator_host <- os_getenv PUBSUB_EMULATOR ;;
        match emulator_host with
        | None => M_ret API_BASE_URL
        | Some emulator_host => M_ret ("http://" ++ emulator_host)
        end
    | Some api_base_url => M_ret api_base_url
    end ;;
  M_ret (mkConnection base.1 base.2 api_base_url).

(** Modelled from the spec: the base class [build_api_url], which is not
    in this file.  It fills the class's URL template with the base URL,
    the version and the path, each override falling back to the class
    attribute, and appends the encoded query parameters unless there are
    none. *)
Definition JSONConnection_build_api_url (path : string)
    (query_params : option (gmap string scalar))
    (api_base_url api_version : option string) : Result string :=
  Result_bind
    (λ url,
       let query_params := default ∅ query_params in
       if decide (query_params = ∅) then Ok url
       else Ok (url ++ "?" ++ urlencode query_params))
    (str_format API_URL_TEMPLATE
       (<["api_base_url" := default API_BASE_URL api_base_url]>
          (<["api_version" := default API_VERSION api_version]>
             (<["path" := path]> ∅)))).

(** The attribute read [self.api_base_url]. *)
Definition self_api_base_url : M (Obj Credentials Http Net) string :=
  M_gets (λ σ, api_base_url (self σ)).

(** [Connection.build_api_url] *)
Definition build_api_url (path : string) (query_params : option (gmap string scalar))
    (api_base_url api_version : option string)
    : M (Obj Credentials Http Net) string :=
  api_base_url <-
    match api_base_url with
    | None => self_api_base_url
    | Some api_base_url => M_ret api_base_url
    end ;;
  M_lift (JSONConnection_build_api_url path query_params (Some api_base_url) api_version).

(** [self.api_request(...)]: the call is recorded in the trace and
    handed to the inherited primitive. *)
Definition api_request (req : Request) : M (Obj Credentials Http Net) value :=
  λ σ,
    let '(r, c, n) := transport req (self σ) (net (proc σ)) in
    (r, mkObj c (mkProc (environ (proc σ)) n (trace (proc σ) ++ [EvRequest req]))).

(** [resp.get(key, default)]: only a mapping has the method. *)
Definition dict_get {S : Type} (resp : value) (key : string) (dflt : value) : M S value :=
  match resp with
  | VDict d => M_ret (default dflt (d !! key))
  | _ => M_raise (AttributeError "get")
  end.

(** [Connection.list_topics] *)
Definition list_topics (project : string) (page_size : option Z)
    (page_token : option string) : M (Obj Credentials Http Net) (value * value) :=
  let params : gmap string scalar := ∅ in
  let params :=
    match page_size with
    | Some page_size => <["pageSize" := SInt page_size]> params
    | None => params
    end in
  let params :=
    match page_token with
    | Some page_token => <["pageToken" := SStr page_token]> params
    | None => params
    end in
  path <- M_lift (percent_format "/projects/%s/topics" [project]) ;;
  resp <- api_request (mkRequest "GET" path (Some params) None) ;;
  topics <- dict_get resp "topics" (VTuple []) ;;
  token <- dict_get resp "nextPageToken" VNone ;;
  M_ret (topics, token).

(** [Connection.list_subscriptions] *)
Definition list_subscriptions (project : string) (page_size : option Z)
    (page_token : option string) : M (Obj Credentials Http Net) (value * value) :=
  let params : gmap string scalar := ∅ in
  let params :=
    match page_size with
    | Some page_size => <["pageSize" := SInt page_size]> params
    | None => params
    end in
  let params :=
    match page_token with
    | Some page_token => <["pageToken" := SStr page_token]> params
    | None => params
    end in
  path <- M_lift (percent_format "/projects/%s/subscriptions" [project]) ;;
  resp <- api_request (mkRequest "GET" path (Some params) None) ;;
  subscriptions <- dict_get resp "subscriptions" (VTuple []) ;;
  token <- dict_get resp "nextPageToken" VNone ;;
  M_ret (subscriptions, token).

(** [Connection.topic_create] *)
Definition topic_create (topic_path : string) : M (Obj Credentials Http Net) value :=
  path <- M_lift (percent_format "/%s" [topic_path]) ;;
  api_request (mkRequest "PUT" path None None).

(** [Connection.topic_get] *)
Definition topic_get (topic_path : string) : M (Obj Credentials Http Net) value :=
  path <- M_lift (percent_format "/%s" [topic_path]) ;;
  api_request (mkRequest "GET" path None None).

(** [Connection.topic_delete] *)
Definition topic_delete (topic_path : string) : M (Obj Credentials Http Net) value :=
  path <- M_lift (percent_format "/%s" [topic_path]) ;;
  api_request (mkRequest "DELETE" path None None).

(** [Connection.topic_publish] *)
Definition topic_publish (topic_path : string) (messages : value)
    : M (Obj Credentials Http Net) value :=
  let data := VDict {[ "messages" := messages ]} in
  path <- M_lift (percent_format "/%s:publish" [topic_path]) ;;
  api_request (mkRequest "POST" path None (Some data)).

(** ** The listing contract, as the specification words it *)

(** The optional query parameters of a listing call: [pageSize] when a
    page size is supplied, [pageToken] when a page token is supplied, and
    nothing else. *)
Definition page_params (page_size : option Z) (page_token : option string)
    : gmap string scalar :=
  from_option (λ n, {[ "pageSize" := SInt n ]}) ∅ page_size
  ∪ from_option (λ t, {[ "pageToken" := SStr t ]}) ∅ page_token.

(** One listing call against the collection [coll] of a project: a single
    [GET /projects/{project}/{coll}] with the optional paging parameters;
    the result is the [coll] array of the decoded response (an empty
    sequence if absent) and its [nextPageToken] (null if absent).  A
    failure of the request is passed on, and a response that is not a
    mapping has no fields to read. *)
Definition list_contract (coll project : string) (page_size : option Z)
    (page_token : option string) : M (Obj Credentials Http Net) (value * value) :=
  resp <- api_request (mkRequest "GET" ("/projects/" ++ project ++ "/" ++ coll)
                         (Some (page_params page_size page_token)) None) ;;
  match resp with
  | VDict r => M_ret (default (VTuple []) (r !! coll), default VNone (r !! "nextPageToken"))
  | _ => M_raise (AttributeError "get")
  end.

(** Running [m] from [σ] hands exactly the request [req] to the request
    primitive, once, and ends the way the primitive ends: with its
    decoded response or its failure, in the transport state it leaves. *)
Definition performs_only (m : M (Obj Credentials Http Net) value) (req : Request)
    (σ : Obj Credentials Http Net) : Prop :=
  (m σ).1 = (transport req (self σ) (net (proc σ))).1.1
  ∧ trace (proc (m σ).2) = (trace (proc σ) ++ [EvRequest req])%list
  ∧ net (proc (m σ).2) = (transport req (self σ) (net (proc σ))).2
  ∧ environ (proc (m σ).2) = environ (proc σ).

End Connection.

(** ** Sample surroundings *)

(** A transport that answers every request with one fixed outcome,
    counts the requests it has served and leaves the connection alone. *)
Definition fixed_transport (answer : Result value) (req : Request)
    (c : Connection unit unit) (served : nat)
    : Result value * Connection unit unit * nat :=
  (answer, c, S served).

(** A transport that drops the stored transport handle on every call. *)
Definition forgetful_transport (req : Request) (c : Connection unit unit)
    (served : nat) : Result value * Connection unit unit * nat :=
  (Ok (VDict ∅), mkConnection (credentials c) None (api_base_url c), S served).

(** A transport that makes itself a transport handle on first use, when
    the connection holds none. *)
Definition lazy_transport (req : Request) (c : Connection unit unit)
    (served : nat) : Result value * Connection unit unit * nat :=
  (Ok (VDict ∅),
   mkConnection (credentials c)
     (match http c with Some handle => Some handle | None => Some tt end)
     (api_base_url c),
   S served).

Definition sample_proc (env : gmap string string) : Proc nat := mkProc env 0 [].

(** A connection constructed without credentials and without a handle. *)
Definition bare_obj : Obj unit unit nat :=
  mkObj (mkConnection None None API_BASE_URL) (sample_proc ∅).

Definition sample_obj (base : string) : Obj unit unit nat :=
  mkObj (mkConnection (Some tt) (Some tt) base) (sample_proc ∅).

(** The response used in the specification's listing example. *)
Definition sample_listing : gmap string value :=
  <["topics" := VList [ VDict {[ "name" := VStr "projects/p/topics/t" ]} ] ]>
    (<["nextPageToken" := VStr "abc"]> ∅).

(** ** Characters of an encoded query string *)

Fixpoint string_forallb (f : ascii → bool) (s : string) : bool :=
  match s with
  | EmptyString => true
  | String c rest => f c && string_forallb f rest
  end.

(** What may occur in the output of [urlencode]: unquoted characters,
    the quoting marks [%] and [+], and the separators [=] and [&]. *)
Definition query_char (c : ascii) : bool :=
  always_safe c || Ascii.eqb c "%" || Ascii.eqb c "+"
  || Ascii.eqb c "=" || Ascii.eqb c "&".

(** ** Reading a query string back *)

(** The value of a hexadecimal digit, in either case. *)
Definition hex_value (c : ascii) : option N :=
  if in_range "0" "9" c then Some (N_of_ascii c - 48)%N
  else if in_range "A" "F" c then Some (N_of_ascii c - 55)%N
  else if in_range "a" "f" c then Some (N_of_ascii c - 87)%N
  else None.

(** The inverse of [quote_plus]: [+] is a space, [%XY] the character
    with that code, anything else itself. *)
Fixpoint unquote_plus (s : string) : string :=
  match s with
  | EmptyString => ""
  | String c rest =>
      if Ascii.eqb c "+" then String " " (unquote_plus rest)
      else if Ascii.eqb c "%" then
        match rest with
        | String a (String b rest') =>
            match hex_value a, hex_value b with
            | Some x, Some y => String (ascii_of_N (16 * x + y)) (unquote_plus rest')
            | _, _ => String c (unquote_plus rest)
            end
        | _ => String c (unquote_plus rest)
        end
      else String c (unquote_plus rest)
  end.

(** [s.split(sep)] for a one-character separator. *)
Fixpoint split_on (sep : ascii) (s : string) : list string :=
  match s with
  | EmptyString => [""]
  | String c rest =>
      if Ascii.eqb c sep then "" :: split_on sep rest
      else match split_on sep rest with
           | part :: parts => String c part :: parts
           | [] => [String c ""]
           end
  end.

(** [s.partition(sep)] without the separator: what precedes its first
    occurrence and what follows it. *)
Fixpoint partition_at (sep : ascii) (s : string) : string * string :=
  match s with
  | EmptyString => ("", "")
  | String c rest =>
      if Ascii.eqb c sep then ("", rest)
      else (String c (partition_at sep rest).1, (partition_at sep rest).2)
  end.

Definition parse_pair (part : string) : string * string :=
  (unquote_plus (partition_at "=" part).1, unquote_plus (partition_at "=" part).2).

(** How a server reads a query string: the pairs between [&], each cut
    at its first [=], both sides unquoted. *)
Definition parse_qsl (qs : string) : list (string * string) :=
  if decide (qs = "") then [] else parse_pair <$> split_on "&" qs.

(** A string in which [sep] does not occur. *)
Definition free_of (sep : ascii) (s : string) : bool :=
  string_forallb (λ c, negb (Ascii.eqb c sep)) s.

(** What [quote_plus] can produce: unquoted characters and the two
    quoting marks. *)
Definition quoted_char (c : ascii) : bool :=
  always_safe c || Ascii.eqb c "%" || Ascii.eqb c "+".

(** ** Observing a run *)

(** The last I/O event on record once [m] has run from [σ]. *)
Definition issued {Credentials Http Net A : Type}
    (m : M (Obj Credentials Http Net) A) (σ : Obj Credentials Http Net)
    : option Event :=
  last (trace (proc (m σ).2)).

(** The same state in a process whose environment is [env]. *)
Definition with_environ {Credentials Http Net : Type} (env : gmap string string)
    (σ : Obj Credentials Http Net) : Obj Credentials Http Net :=
  mkObj (self σ) (mkProc env (net (proc σ)) (trace (proc σ))).

(** The state in which a method of a freshly constructed connection
    runs: the connection, in the process the constructor left. *)
Definition constructed {Credentials Http Net : Type}
    (r : Result (Connection Credentials Http) * Proc Net)
    : option (Obj Credentials Http Net) :=
  match r.1 with
  | Ok c => Some (mkObj c r.2)
  | Raise _ => None
  end.

(** An environment in which the emulator variable is one of several. *)
Definition sample_environ (home : string) : gmap string string :=
  <["HOME" := home]> (<["PUBSUB_EMULATOR_HOST" := "localhost:8085"]> ∅).


(** * Properties *)

Section Properties.

Context {Credentials Http Net : Type}.
Variable PUBSUB_EMULATOR : string.
Variable transport :
  Request → Connection Credentials Http → Net →
  Result value * Connection Credentials Http * Net.

Implicit Types (p : Proc Net) (σ : Obj Credentials Http Net).
Implicit Types (cred : option Credentials) (h : option Http).

(** ** Construction *)

(** C1: the base URL is the explicit argument if there is one, else
    [http://] followed by the emulator variable if it is set, else the
    public endpoint; the constructor returns, and the only I/O it can
    perform is the one read of that variable (none at all when the
    argument is given): environment and transport state are untouched. *)
Theorem Connection_init_resolution cred h (url : option string) p :
  Connection_init PUBSUB_EMULATOR cred h url p =
    (Ok (mkConnection cred h
           match url with
           | Some u => u
           | None =>
               match environ p !! PUBSUB_EMULATOR with
               | Some host => "http://" ++ host
               | None => "https://pubsub.googleapis.com"
               end
           end),
     mkProc (environ p) (net p)
       (trace p ++ match url with
                   | Some _ => []
                   | None => [EvGetenv PUBSUB_EMULATOR]
                   end)).
Proof.
  destruct p as [env n tr], url as [u|].
  - unfold Connection_init, JSONConnection_init, M_bind, M_ret. simpl.
    by rewrite app_nil_r.
  - unfold Connection_init, JSONConnection_init, os_getenv, emit, M_bind, M_ret.
    simpl. by destruct (env !! PUBSUB_EMULATOR).
Qed.

(** C8: with an explicit base URL the constructed connection is the same
    in any two processes, whatever their environments hold, and its base
    URL is the argument. *)
Theorem Connection_init_explicit_noninterference cred h (u : string)
    (p1 p2 : Proc Net) :
  (Connection_init PUBSUB_EMULATOR cred h (Some u) p1).1 =
    (Connection_init PUBSUB_EMULATOR cred h (Some u) p2).1
  ∧ (Connection_init PUBSUB_EMULATOR cred h (Some u) p1).1 =
      Ok (mkConnection cred h u).
Proof. split; reflexivity. Qed.

(** C10: when the emulator variable is set to the empty string and no
    base URL is given, the base URL is [http://], which is not the public
    endpoint. *)
Theorem Connection_init_empty_emulator cred h p :
  environ p !! PUBSUB_EMULATOR = Some "" →
  (Connection_init PUBSUB_EMULATOR cred h None p).1 =
    Ok (mkConnection cred h "http://")
  ∧ "http://" ≠ API_BASE_URL.
Proof.
  intros Hset. split; [|discriminate].
  unfold Connection_init, JSONConnection_init, os_getenv, M_bind, M_ret.
  simpl. by rewrite Hset.
Qed.

(** ** Strings *)

Local Arguments String.append !_ _ / : simpl nomatch.

Lemma append_nil_r (s : string) : s ++ "" = s.
Proof. induction s as [|c s IH]; [done|]. cbn. by rewrite IH. Qed.

Lemma append_assoc (s1 s2 s3 : string) : (s1 ++ s2) ++ s3 = s1 ++ s2 ++ s3.
Proof. induction s1 as [|c s1 IH]; [done|]. cbn. by rewrite IH. Qed.

Lemma string_forallb_app (f : ascii → bool) (s1 s2 : string) :
  string_forallb f (s1 ++ s2) = string_forallb f s1 && string_forallb f s2.
Proof.
  induction s1 as [|c s1 IH]; simpl; [done|].
  by rewrite IH, andb_assoc.
Qed.

(** The class's URL template, filled in. *)
Lemma API_URL_TEMPLATE_filled (kwargs : gmap string string) (b v path : string) :
  kwargs !! "api_base_url" = Some b →
  kwargs !! "api_version" = Some v →
  kwargs !! "path" = Some path →
  str_format API_URL_TEMPLATE kwargs = Ok (b ++ "/" ++ v ++ path).
Proof.
  intros Hb Hv Hp. unfold str_format, API_URL_TEMPLATE.
  cbn. rewrite Hb. cbn. rewrite Hv. cbn. rewrite Hp. cbn.
  by rewrite append_nil_r.
Qed.

(** ** Percent-encoding *)

Lemma quote_char_query_char (c : ascii) :
  string_forallb query_char (quote_char c) = true.
Proof. destruct c as [[] [] [] [] [] [] [] []]; vm_compute; reflexivity. Qed.

Lemma quote_plus_query_char (s : string) :
  string_forallb query_char (quote_plus s) = true.
Proof.
  induction s as [|c s IH]; simpl; [done|].
  by rewrite string_forallb_app, quote_char_query_char, IH.
Qed.

Lemma urlencode_pair_query_char (kv : string * scalar) :
  string_forallb query_char (urlencode_pair kv) = true.
Proof.
  unfold urlencode_pair.
  rewrite !string_forallb_app, !quote_plus_query_char. reflexivity.
Qed.

Lemma concat_query_char (parts : list string) :
  Forall (λ s, string_forallb query_char s = true) parts →
  string_forallb query_char (String.concat "&" parts) = true.
Proof.
  induction 1 as [|s parts Hs Hparts IH]; simpl; [done|].
  destruct parts as [|s' parts]; [done|].
  rewrite string_forallb_app, Hs. simpl. exact IH.
Qed.

Lemma urlencode_query_char (query : gmap string scalar) :
  string_forallb query_char (urlencode query) = true.
Proof.
  unfold urlencode. apply concat_query_char, Forall_fmap, Forall_forall.
  intros kv _. apply urlencode_pair_query_char.
Qed.

(** ** Decoding *)

Lemma string_forallb_impl (f g : ascii → bool) (s : string) :
  (∀ c, f c = true → g c = true) →
  string_forallb f s = true → string_forallb g s = true.
Proof.
  intros Hfg. induction s as [|c s IH]; simpl; [done|].
  rewrite !andb_true_iff. intros [Hc Hs]. split; [by apply Hfg | by apply IH].
Qed.

Lemma quote_char_quoted (c : ascii) :
  string_forallb quoted_char (quote_char c) = true.
Proof. destruct c as [[] [] [] [] [] [] [] []]; vm_compute; reflexivity. Qed.

Lemma quote_plus_quoted (s : string) :
  string_forallb quoted_char (quote_plus s) = true.
Proof.
  induction s as [|c s IH]; simpl; [done|].
  by rewrite string_forallb_app, quote_char_quoted, IH.
Qed.

Lemma quoted_char_not_separator (c : ascii) :
  quoted_char c = true →
  negb (Ascii.eqb c "&") = true ∧ negb (Ascii.eqb c "=") = true.
Proof. destruct c as [[] [] [] [] [] [] [] []]; vm_compute; intuition congruence. Qed.

Lemma quote_plus_free_of (sep : ascii) (s : string) :
  sep = "&"%char ∨ sep = "="%char → free_of sep (quote_plus s) = true.
Proof.
  intros Hsep. unfold free_of.
  apply (string_forallb_impl quoted_char); [|apply quote_plus_quoted].
  intros c Hc. destruct (quoted_char_not_separator c Hc) as [Hamp Heq].
  by destruct Hsep as [-> | ->].
Qed.

Lemma unquote_plus_quote_char (c : ascii) (rest : string) :
  unquote_plus (quote_char c ++ rest) = String c (unquote_plus rest).
Proof. destruct c as [[] [] [] [] [] [] [] []]; reflexivity. Qed.

Lemma unquote_plus_quote_plus (s : string) : unquote_plus (quote_plus s) = s.
Proof.
  induction s as [|c s IH]; [done|].
  simpl quote_plus. by rewrite unquote_plus_quote_char, IH.
Qed.

Lemma partition_at_first (sep : ascii) (k v : string) :
  free_of sep k = true → partition_at sep (k ++ String sep v) = (k, v).
Proof.
  unfold free_of. induction k as [|c k IH]; simpl.
  - intros _. by rewrite Ascii.eqb_refl.
  - rewrite andb_true_iff, negb_true_iff. intros [Hc Hk].
    by rewrite Hc, (IH Hk).
Qed.

Lemma split_on_free (sep : ascii) (s : string) :
  free_of sep s = true → split_on sep s = [s].
Proof.
  unfold free_of. induction s as [|c s IH]; simpl; [done|].
  rewrite andb_true_iff, negb_true_iff. intros [Hc Hs].
  by rewrite Hc, (IH Hs).
Qed.

Lemma split_on_first (sep : ascii) (s t : string) :
  free_of sep s = true →
  split_on sep (s ++ String sep t) = s :: split_on sep t.
Proof.
  unfold free_of. induction s as [|c s IH]; simpl.
  - intros _. by rewrite Ascii.eqb_refl.
  - rewrite andb_true_iff, negb_true_iff. intros [Hc Hs].
    by rewrite Hc, (IH Hs).
Qed.

Lemma split_on_concat (sep : ascii) (parts : list string) :
  parts ≠ [] →
  Forall (λ s, free_of sep s = true) parts →
  split_on sep (String.concat (String sep "") parts) = parts.
Proof.
  intros Hne Hfree. induction Hfree as [|s parts Hs Hparts IH]; [done|].
  destruct parts as [|s' parts]; simpl.
  - by apply split_on_free.
  - rewrite split_on_first by done. f_equal. by apply IH.
Qed.

Lemma urlencode_pair_free_of_amp (kv : string * scalar) :
  free_of "&" (urlencode_pair kv) = true.
Proof.
  unfold urlencode_pair, free_of.
  rewrite !string_forallb_app. simpl.
  fold (free_of "&" (quote_plus kv.1)).
  fold (free_of "&" (quote_plus (str_of_scalar kv.2))).
  rewrite !quote_plus_free_of by auto. reflexivity.
Qed.

Lemma parse_pair_urlencode_pair (kv : string * scalar) :
  parse_pair (urlencode_pair kv) = (kv.1, str_of_scalar kv.2).
Proof.
  unfold parse_pair, urlencode_pair.
  change ("=" ++ quote_plus (str_of_scalar kv.2))
    with (String "=" (quote_plus (str_of_scalar kv.2))).
  rewrite partition_at_first by (apply quote_plus_free_of; auto).
  simpl. by rewrite !unquote_plus_quote_plus.
Qed.

Lemma urlencode_pair_nonempty (kv : string * scalar) : urlencode_pair kv ≠ "".
Proof.
  unfold urlencode_pair. intros Heq.
  apply (f_equal (free_of "=")) in Heq. revert Heq. unfold free_of.
  rewrite string_forallb_app. simpl. by rewrite andb_false_r.
Qed.

Lemma concat_nonempty (sep s : string) (parts : list string) :
  s ≠ "" → String.concat sep (s :: parts) ≠ "".
Proof.
  intros Hs. destruct parts as [|s' parts]; simpl; [done|].
  destruct s as [|c s]; [done|]. discriminate.
Qed.

(** Read back, an encoded query string gives the entries it was made
    from, each value in its string form. *)
Lemma parse_qsl_urlencode (query : gmap string scalar) :
  parse_qsl (urlencode query) =
    (λ kv, (kv.1, str_of_scalar kv.2)) <$> map_to_list query.
Proof.
  unfold parse_qsl, urlencode.
  destruct (map_to_list query) as [|kv kvs] eqn:Hlist; [done|].
  rewrite decide_False by apply concat_nonempty, urlencode_pair_nonempty.
  rewrite split_on_concat.
  - rewrite <- list_fmap_compose. apply list_fmap_ext.
    intros i kv' _. apply parse_pair_urlencode_pair.
  - done.
  - apply Forall_fmap, Forall_forall. intros kv' _.
    apply urlencode_pair_free_of_amp.
Qed.

(** ** The URL builder *)

(** C2: the URL is the base, a slash, the version and the path, followed,
    unless there are no query parameters, by [?] and their encoding.  The
    encoding is percent-encoded: every character of it is unquoted-safe,
    a quoting mark or a separator, and read back as a query string it
    gives the parameters it was made from, key by key, each value in its
    string form.  The base is the override or else the stored base URL,
    the version the override or else [v1].  The call returns for every
    input and leaves the whole state as it was. *)
Theorem build_api_url_shape (path : string) (query_params : option (gmap string scalar))
    (base version : option string) σ :
  build_api_url path query_params base version σ =
    (Ok (default (api_base_url (self σ)) base ++ "/" ++ default "v1" version ++ path
         ++ (if decide (default ∅ query_params = ∅) then ""
             else "?" ++ urlencode (default ∅ query_params))),
     σ)
  ∧ string_forallb query_char (urlencode (default ∅ query_params)) = true
  ∧ parse_qsl (urlencode (default ∅ query_params)) =
      (λ kv, (kv.1, str_of_scalar kv.2)) <$> map_to_list (default ∅ query_params).
Proof.
  split; [|split; [apply urlencode_query_char | apply parse_qsl_urlencode]].
  unfold build_api_url, self_api_base_url, JSONConnection_build_api_url,
    M_bind, M_gets, M_ret, M_lift.
  set (b := default (api_base_url (self σ)) base).
  assert (Hfmt : ∀ b',
    str_format API_URL_TEMPLATE
      (<["api_base_url" := b']>
         (<["api_version" := default API_VERSION version]> (<["path" := path]> ∅)))
    = Ok (b' ++ "/" ++ default "v1" version ++ path)).
  { intros b'. apply API_URL_TEMPLATE_filled; by simplify_map_eq. }
  destruct base as [b0|]; simpl; rewrite Hfmt; simpl; subst b; simpl;
    (case_decide;
     [by rewrite append_nil_r
     |rewrite append_assoc; simpl; by rewrite append_assoc]).
Qed.

(** ** Requests *)

Lemma page_params_lookup (page_size : option Z) (page_token : option string)
    (k : string) :
  page_params page_size page_token !! k =
    if decide (k = "pageSize") then SInt <$> page_size
    else if decide (k = "pageToken") then SStr <$> page_token
    else None.
Proof.
  unfold page_params. rewrite lookup_union.
  destruct page_size as [n|], page_token as [t|]; simpl;
    repeat case_decide; by simplify_map_eq.
Qed.

(** The dictionary that the two listing methods fill step by step. *)
Lemma params_built (page_size : option Z) (page_token : option string) :
  match page_token with
  | Some t =>
      <["pageToken" := SStr t]>
        match page_size with
        | Some n => <["pageSize" := SInt n]> (∅ : gmap string scalar)
        | None => ∅
        end
  | None =>
      match page_size with
      | Some n => <["pageSize" := SInt n]> ∅
      | None => ∅
      end
  end = page_params page_size page_token.
Proof.
  apply map_eq. intros k. rewrite page_params_lookup.
  destruct page_size as [n|], page_token as [t|]; simpl;
    repeat case_decide; by simplify_map_eq.
Qed.

(** What one call of the request primitive does to the state. *)
Lemma api_request_run (req : Request) σ :
  api_request transport req σ =
    ((transport req (self σ) (net (proc σ))).1.1,
     mkObj (transport req (self σ) (net (proc σ))).1.2
       (mkProc (environ (proc σ)) (transport req (self σ) (net (proc σ))).2
          (trace (proc σ) ++ [EvRequest req]))).
Proof.
  unfold api_request.
  by destruct (transport req (self σ) (net (proc σ))) as [[r c] n].
Qed.

Lemma list_contract_trace (coll project : string) (page_size : option Z)
    (page_token : option string) σ :
  trace (proc (list_contract transport coll project page_size page_token σ).2) =
    (trace (proc σ)
     ++ [EvRequest (mkRequest "GET" ("/projects/" ++ project ++ "/" ++ coll)
                      (Some (page_params page_size page_token)) None)])%list.
Proof.
  unfold list_contract, M_bind. rewrite api_request_run. simpl.
  destruct (transport _ _ _) as [[[[]|] c] n]; reflexivity.
Qed.

Lemma list_contract_self (coll project : string) (page_size : option Z)
    (page_token : option string) σ :
  self (list_contract transport coll project page_size page_token σ).2 =
    (transport (mkRequest "GET" ("/projects/" ++ project ++ "/" ++ coll)
                  (Some (page_params page_size page_token)) None)
       (self σ) (net (proc σ))).1.2.
Proof.
  unfold list_contract, M_bind. rewrite api_request_run. simpl.
  destruct (transport _ _ _) as [[[[]|] c] n]; reflexivity.
Qed.

Lemma list_contract_result (coll project : string) (page_size : option Z)
    (page_token : option string) σ (r : gmap string value) :
  (transport (mkRequest "GET" ("/projects/" ++ project ++ "/" ++ coll)
                (Some (page_params page_size page_token)) None)
     (self σ) (net (proc σ))).1.1 = Ok (VDict r) →
  (list_contract transport coll project page_size page_token σ).1 =
    Ok (default (VTuple []) (r !! coll), default VNone (r !! "nextPageToken")).
Proof.
  intros Hresp. unfold list_contract, M_bind. rewrite api_request_run, Hresp.
  reflexivity.
Qed.

Lemma list_topics_as_contract (project : string) (page_size : option Z)
    (page_token : option string) σ :
  list_topics transport project page_size page_token σ =
    list_contract transport "topics" project page_size page_token σ.
Proof.
  unfold list_topics, list_contract, M_bind, M_lift, dict_get. simpl.
  rewrite params_built, !api_request_run.
  destruct (transport _ _ _) as [[[[]|] c] n]; reflexivity.
Qed.

Lemma list_subscriptions_as_contract (project : string) (page_size : option Z)
    (page_token : option string) σ :
  list_subscriptions transport project page_size page_token σ =
    list_contract transport "subscriptions" project page_size page_token σ.
Proof.
  unfold list_subscriptions, list_contract, M_bind, M_lift, dict_get. simpl.
  rewrite params_built, !api_request_run.
  destruct (transport _ _ _) as [[[[]|] c] n]; reflexivity.
Qed.

(** A method that formats a path and makes one request with it. *)
Lemma single_request_run (template : string) (arg path : string) (req : string → Request) σ :
  percent_format template [arg] = Ok path →
  M_bind (M_lift (percent_format template [arg])) (λ pth, api_request transport (req pth)) σ =
    api_request transport (req path) σ.
Proof. intros Hfmt. unfold M_bind, M_lift. by rewrite Hfmt. Qed.

(** ** Listing *)

(** C3: when the decoded response to the listing request is the mapping
    [r], [list_topics] returns the pair of [r]'s [topics] value, or an
    empty sequence if [r] has no such key, and [r]'s [nextPageToken]
    value, or null if [r] has no such key. *)
Theorem list_topics_result (project : string) (page_size : option Z)
    (page_token : option string) σ (r : gmap string value) :
  (transport (mkRequest "GET" ("/projects/" ++ project ++ "/topics")
                (Some (page_params page_size page_token)) None)
     (self σ) (net (proc σ))).1.1 = Ok (VDict r) →
  (list_topics transport project page_size page_token σ).1 =
    Ok (default (VTuple []) (r !! "topics"), default VNone (r !! "nextPageToken")).
Proof.
  intros Hresp. rewrite list_topics_as_contract.
  by apply list_contract_result.
Qed.

(** C4: whatever the transport answers, [list_topics] adds exactly one
    event to the trace, a [GET] of [/projects/{project}/topics] without a
    body, whose query parameters hold [pageSize] exactly when a page size
    was supplied, [pageToken] exactly when a page token was supplied, and
    no other key. *)
Theorem list_topics_single_request (project : string) (page_size : option Z)
    (page_token : option string) σ :
  ∃ params : gmap string scalar,
    trace (proc (list_topics transport project page_size page_token σ).2) =
      (trace (proc σ)
       ++ [EvRequest (mkRequest "GET" ("/projects/" ++ project ++ "/topics")
                        (Some params) None)])%list
    ∧ (is_Some (params !! "pageSize") ↔ is_Some page_size)
    ∧ (is_Some (params !! "pageToken") ↔ is_Some page_token)
    ∧ ∀ k, params !! k =
        if decide (k = "pageSize") then SInt <$> page_size
        else if decide (k = "pageToken") then SStr <$> page_token
        else None.
Proof.
  exists (page_params page_size page_token).
  rewrite list_topics_as_contract, list_contract_trace.
  split; [reflexivity|].
  rewrite !page_params_lookup. simpl.
  split; [by rewrite fmap_is_Some|].
  split; [by rewrite fmap_is_Some|].
  apply page_params_lookup.
Qed.

(** C7: [list_topics] and [list_subscriptions] are the same listing
    contract, taken at the collection names [topics] and [subscriptions]:
    the name is the last path segment of the request and the key read
    from the response. *)
Theorem list_subscriptions_same_contract (project : string) (page_size : option Z)
    (page_token : option string) σ :
  list_topics transport project page_size page_token σ =
    list_contract transport "topics" project page_size page_token σ
  ∧ list_subscriptions transport project page_size page_token σ =
      list_contract transport "subscriptions" project page_size page_token σ.
Proof.
  split; [apply list_topics_as_contract | apply list_subscriptions_as_contract].
Qed.

(** ** Topics *)

(** C6: [topic_create], [topic_get] and [topic_delete] each make exactly
    one request, a [PUT], a [GET] and a [DELETE] of the path [/]
    followed by the topic path, with neither query parameters nor body,
    and return the decoded response of that request. *)
Theorem topic_methods_single_request (topic_path : string) σ :
  performs_only transport (topic_create transport topic_path)
    (mkRequest "PUT" ("/" ++ topic_path) None None) σ
  ∧ performs_only transport (topic_get transport topic_path)
      (mkRequest "GET" ("/" ++ topic_path) None None) σ
  ∧ performs_only transport (topic_delete transport topic_path)
      (mkRequest "DELETE" ("/" ++ topic_path) None None) σ.
Proof.
  assert (Hpath : percent_format "/%s" [topic_path] = Ok ("/" ++ topic_path)).
  { simpl. by rewrite append_nil_r. }
  unfold topic_create, topic_get, topic_delete, performs_only.
  rewrite (single_request_run "/%s" topic_path ("/" ++ topic_path)
             (λ pth, mkRequest "PUT" pth None None) σ Hpath).
  rewrite (single_request_run "/%s" topic_path ("/" ++ topic_path)
             (λ pth, mkRequest "GET" pth None None) σ Hpath).
  rewrite (single_request_run "/%s" topic_path ("/" ++ topic_path)
             (λ pth, mkRequest "DELETE" pth None None) σ Hpath).
  repeat split; by rewrite api_request_run.
Qed.

(** C5: [topic_publish] makes exactly one request, a [POST] of the topic
    path between [/] and [:publish], whose body is the mapping with the
    single key [messages] bound to the messages exactly as they were
    passed, and returns the decoded response of that request. *)
Theorem topic_publish_single_request (topic_path : string) (messages : value) σ :
  performs_only transport (topic_publish transport topic_path messages)
    (mkRequest "POST" ("/" ++ topic_path ++ ":publish") None
       (Some (VDict {[ "messages" := messages ]}))) σ.
Proof.
  unfold topic_publish, performs_only.
  rewrite (single_request_run "/%s:publish" topic_path ("/" ++ topic_path ++ ":publish")
             (λ pth, mkRequest "POST" pth None (Some (VDict {[ "messages" := messages ]}))))
    by reflexivity.
  repeat split; by rewrite api_request_run.
Qed.

(** ** Immutability *)

(** C9: no operation of this class changes a field of its receiver
    itself.  [build_api_url] leaves the whole state as it was, and after
    each of the six request methods the receiver is the connection that
    the inherited request primitive left after the method's one
    request.  So every operation leaves every field unchanged whenever
    the primitive leaves the connection it is called on unchanged. *)
Theorem operations_add_no_mutation σ :
  (∀ path qp base version, (build_api_url path qp base version σ).2 = σ)
  ∧ (∀ project ps pt,
       self (list_topics transport project ps pt σ).2 =
         (transport (mkRequest "GET" ("/projects/" ++ project ++ "/topics")
                       (Some (page_params ps pt)) None)
            (self σ) (net (proc σ))).1.2)
  ∧ (∀ project ps pt,
       self (list_subscriptions transport project ps pt σ).2 =
         (transport (mkRequest "GET" ("/projects/" ++ project ++ "/subscriptions")
                       (Some (page_params ps pt)) None)
            (self σ) (net (proc σ))).1.2)
  ∧ (∀ topic_path,
       self (topic_create transport topic_path σ).2 =
         (transport (mkRequest "PUT" ("/" ++ topic_path) None None)
            (self σ) (net (proc σ))).1.2)
  ∧ (∀ topic_path,
       self (topic_get transport topic_path σ).2 =
         (transport (mkRequest "GET" ("/" ++ topic_path) None None)
            (self σ) (net (proc σ))).1.2)
  ∧ (∀ topic_path,
       self (topic_delete transport topic_path σ).2 =
         (transport (mkRequest "DELETE" ("/" ++ topic_path) None None)
            (self σ) (net (proc σ))).1.2)
  ∧ (∀ topic_path messages,
       self (topic_publish transport topic_path messages σ).2 =
         (transport (mkRequest "POST" ("/" ++ topic_path ++ ":publish") None
                       (Some (VDict {[ "messages" := messages ]})))
            (self σ) (net (proc σ))).1.2)
  ∧ ((∀ req c n, (transport req c n).1.2 = c) →
     (∀ project ps pt, self (list_topics transport project ps pt σ).2 = self σ)
     ∧ (∀ project ps pt,
          self (list_subscriptions transport project ps pt σ).2 = self σ)
     ∧ (∀ topic_path, self (topic_create transport topic_path σ).2 = self σ)
     ∧ (∀ topic_path, self (topic_get transport topic_path σ).2 = self σ)
     ∧ (∀ topic_path, self (topic_delete transport topic_path σ).2 = self σ)
     ∧ (∀ topic_path messages,
          self (topic_publish transport topic_path messages σ).2 = self σ)).
Proof.
  assert (Hreq : ∀ req,
    self (api_request transport req σ).2 =
      (transport req (self σ) (net (proc σ))).1.2).
  { intros req. by rewrite api_request_run. }
  assert (Hlt : ∀ project ps pt,
    self (list_topics transport project ps pt σ).2 =
      (transport (mkRequest "GET" ("/projects/" ++ project ++ "/topics")
                    (Some (page_params ps pt)) None)
         (self σ) (net (proc σ))).1.2).
  { intros. by rewrite list_topics_as_contract, list_contract_self. }
  assert (Hls : ∀ project ps pt,
    self (list_subscriptions transport project ps pt σ).2 =
      (transport (mkRequest "GET" ("/projects/" ++ project ++ "/subscriptions")
                    (Some (page_params ps pt)) None)
         (self σ) (net (proc σ))).1.2).
  { intros. by rewrite list_subscriptions_as_contract, list_contract_self. }
  assert (Hpath : ∀ topic_path,
    percent_format "/%s" [topic_path] = Ok ("/" ++ topic_path)).
  { intros. simpl. by rewrite append_nil_r. }
  assert (Htc : ∀ topic_path,
    self (topic_create transport topic_path σ).2 =
      (transport (mkRequest "PUT" ("/" ++ topic_path) None None)
         (self σ) (net (proc σ))).1.2).
  { intros. unfold topic_create.
    by rewrite (single_request_run "/%s" topic_path ("/" ++ topic_path)
                  (λ pth, mkRequest "PUT" pth None None) σ (Hpath _)), Hreq. }
  assert (Htg : ∀ topic_path,
    self (topic_get transport topic_path σ).2 =
      (transport (mkRequest "GET" ("/" ++ topic_path) None None)
         (self σ) (net (proc σ))).1.2).
  { intros. unfold topic_get.
    by rewrite (single_request_run "/%s" topic_path ("/" ++ topic_path)
                  (λ pth, mkRequest "GET" pth None None) σ (Hpath _)), Hreq. }
  assert (Htd : ∀ topic_path,
    self (topic_delete transport topic_path σ).2 =
      (transport (mkRequest "DELETE" ("/" ++ topic_path) None None)
         (self σ) (net (proc σ))).1.2).
  { intros. unfold topic_delete.
    by rewrite (single_request_run "/%s" topic_path ("/" ++ topic_path)
                  (λ pth, mkRequest "DELETE" pth None None) σ (Hpath _)), Hreq. }
  assert (Htp : ∀ topic_path messages,
    self (topic_publish transport topic_path messages σ).2 =
      (transport (mkRequest "POST" ("/" ++ topic_path ++ ":publish") None
                    (Some (VDict {[ "messages" := messages ]})))
         (self σ) (net (proc σ))).1.2).
  { intros. unfold topic_publish.
    by rewrite (single_request_run "/%s:publish" topic_path
                  ("/" ++ topic_path ++ ":publish")
                  (λ pth, mkRequest "POST" pth None
                            (Some (VDict {[ "messages" := messages ]}))) σ eq_refl), Hreq. }
  repeat split; try done.
  - intros path qp base version.
    unfold build_api_url, self_api_base_url, M_bind, M_gets, M_ret, M_lift.
    by destruct base.
  - intros. by rewrite Hlt.
  - intros. by rewrite Hls.
  - intros. by rewrite Htc.
  - intros. by rewrite Htg.
  - intros. by rewrite Htd.
  - intros. by rewrite Htp.
Qed.

End Properties.

(** * The specification's examples, run *)

(** The emulator example: [localhost:8085] gives [http://localhost:8085],
    after one read of the variable. *)
Example Connection_init_emulator_example :
  Connection_init (Credentials := unit) (Http := unit) "PUBSUB_EMULATOR_HOST"
    None None None
    (sample_proc {[ "PUBSUB_EMULATOR_HOST" := "localhost:8085" ]}) =
  (Ok (mkConnection None None "http://localhost:8085"),
   mkProc {[ "PUBSUB_EMULATOR_HOST" := "localhost:8085" ]} 0
     [EvGetenv "PUBSUB_EMULATOR_HOST"]).
Proof. reflexivity. Qed.

Example Connection_init_default_example :
  (Connection_init (Credentials := unit) (Http := unit) "PUBSUB_EMULATOR_HOST"
     None None None (sample_proc ∅)).1 =
  Ok (mkConnection None None "https://pubsub.googleapis.com").
Proof. reflexivity. Qed.

Example build_api_url_example :
  (build_api_url "/projects/p/topics"
     (Some (<["pageSize" := SInt 10]> (<["pageToken" := SStr "a b/c"]> ∅)))
     None None (sample_obj API_BASE_URL)).1 =
  Ok "https://pubsub.googleapis.com/v1/projects/p/topics?pageSize=10&pageToken=a+b%2Fc".
Proof. vm_compute. reflexivity. Qed.

Example build_api_url_no_params_example :
  (build_api_url "/projects/p/topics/t" (Some ∅) None None
     (sample_obj "http://localhost:8085")).1 =
  Ok "http://localhost:8085/v1/projects/p/topics/t".
Proof. vm_compute. reflexivity. Qed.

Example topic_create_example :
  trace (proc (topic_create (fixed_transport (Ok (VDict ∅)))
                 "projects/p/topics/t" (sample_obj API_BASE_URL)).2) =
  [EvRequest (mkRequest "PUT" "/projects/p/topics/t" None None)].
Proof. reflexivity. Qed.

Example topic_publish_example :
  trace (proc (topic_publish (fixed_transport (Ok (VDict ∅)))
                 "projects/p/topics/t"
                 (VList [ VDict {[ "data" := VStr "aGVsbG8=" ]} ])
                 (sample_obj API_BASE_URL)).2) =
  [EvRequest
     (mkRequest "POST" "/projects/p/topics/t:publish" None
        (Some (VDict {[ "messages" := VList [ VDict {[ "data" := VStr "aGVsbG8=" ]} ] ]})))].
Proof. reflexivity. Qed.

(** A failure of the request primitive is the failure of the method. *)
Example topic_get_failure_example :
  (topic_get (fixed_transport (Raise (RequestError "404")))
     "projects/p/topics/t" (sample_obj API_BASE_URL)).1 =
  Raise (RequestError "404").
Proof. reflexivity. Qed.

(** A response that is not a mapping cannot be read by [list_topics]. *)
Example list_topics_not_a_mapping_example :
  (list_topics (fixed_transport (Ok (VList []))) "p" None None
     (sample_obj API_BASE_URL)).1 =
  Raise (AttributeError "get").
Proof. reflexivity. Qed.

(** The immutability of the receiver rests on the request primitive: a
    primitive that rewrites the connection shows through every method
    that calls it. *)
Example forgetful_transport_example :
  http (self (topic_get forgetful_transport "projects/p/topics/t"
                (sample_obj API_BASE_URL)).2) = None
  ∧ http (self (sample_obj API_BASE_URL)) = Some tt.
Proof. split; reflexivity. Qed.

(** * Instances *)

Lemma list_topics_result_witness :
  (list_topics (fixed_transport (Ok (VDict sample_listing))) "p" (Some 10%Z) (Some "t0")
     (sample_obj API_BASE_URL)).1 =
    Ok (VList [ VDict {[ "name" := VStr "projects/p/topics/t" ]} ], VStr "abc")
  ∧ (list_topics (fixed_transport (Ok (VDict ∅))) "p" None None
       (sample_obj API_BASE_URL)).1 =
      Ok (VTuple [], VNone).
Proof.
  split.
  - exact (list_topics_result (fixed_transport (Ok (VDict sample_listing)))
             "p" (Some 10%Z) (Some "t0") (sample_obj API_BASE_URL) sample_listing
             eq_refl).
  - exact (list_topics_result (fixed_transport (Ok (VDict ∅)))
             "p" None None (sample_obj API_BASE_URL) ∅ eq_refl).
Defined.

Lemma operations_add_no_mutation_witness :
  (∀ req c n, (fixed_transport (Ok (VDict sample_listing)) req c n).1.2 = c)
  ∧ self (topic_publish (fixed_transport (Ok (VDict sample_listing)))
            "projects/p/topics/t" (VList []) (sample_obj API_BASE_URL)).2 =
      self (sample_obj API_BASE_URL).
Proof.
  split; [intros req c n; reflexivity|].
  apply (proj2 (proj2 (proj2 (proj2 (proj2 (proj2 (proj2
           (operations_add_no_mutation
              (fixed_transport (Ok (VDict sample_listing)))
              (sample_obj API_BASE_URL))))))))).
  intros req c n. reflexivity.
Defined.

(** With a primitive that makes its handle on first use, a connection
    constructed without one is not the same after [topic_get]. *)
Lemma operations_preserve_connection_counterexample :
  self (topic_get lazy_transport "projects/p/topics/t" bare_obj).2 ≠ self bare_obj.
Proof. vm_compute. discriminate. Qed.

Lemma Connection_init_empty_emulator_witness :
  environ (sample_proc {[ "PUBSUB_EMULATOR_HOST" := "" ]}) !! "PUBSUB_EMULATOR_HOST"
    = Some ""
  ∧ (Connection_init (Credentials := unit) (Http := unit) "PUBSUB_EMULATOR_HOST"
       None None None (sample_proc {[ "PUBSUB_EMULATOR_HOST" := "" ]})).1 =
      Ok (mkConnection None None "http://").
Proof.
  split; [reflexivity|].
  apply (Connection_init_empty_emulator "PUBSUB_EMULATOR_HOST" None None
           (sample_proc {[ "PUBSUB_EMULATOR_HOST" := "" ]})).
  reflexivity.
Defined.

(** * Further behaviour of the methods *)

Section Behaviour.

Context {Credentials Http Net : Type}.
Variable PUBSUB_EMULATOR : string.
Variable transport :
  Request → Connection Credentials Http → Net →
  Result value * Connection Credentials Http * Net.

Implicit Types (p : Proc Net) (σ : Obj Credentials Http Net).
Implicit Types (cred : option Credentials) (h : option Http).

Local Arguments String.append !_ _ / : simpl nomatch.

(** ** Subscriptions *)

(** X1: When the decoded response to the listing request is the mapping [r],
    [list_subscriptions] returns [r]'s [subscriptions] value, or an empty
    tuple if [r] has no such key, with [r]'s [nextPageToken] value, or
    [None] if [r] has no such key. *)
Theorem list_subscriptions_result (project : string) (page_size : option Z)
    (page_token : option string) σ (r : gmap string value) :
  (transport (mkRequest "GET" ("/projects/" ++ project ++ "/subscriptions")
                (Some (page_params page_size page_token)) None)
     (self σ) (net (proc σ))).1.1 = Ok (VDict r) →
  (list_subscriptions transport project page_size page_token σ).1 =
    Ok (default (VTuple []) (r !! "subscriptions"),
        default VNone (r !! "nextPageToken")).
Proof.
  intros Hresp. rewrite list_subscriptions_as_contract.
  by apply list_contract_result.
Qed.

(** X2: Whatever the transport answers, [list_subscriptions] adds exactly one
    event to the trace, a [GET] of [/projects/{project}/subscriptions]
    without a body; its query parameters hold [pageSize] exactly when a
    page size was passed, [pageToken] exactly when a page token was
    passed, and no other key. *)
Theorem list_subscriptions_single_request (project : string)
    (page_size : option Z) (page_token : option string) σ :
  ∃ params : gmap string scalar,
    trace (proc (list_subscriptions transport project page_size page_token σ).2) =
      (trace (proc σ)
       ++ [EvRequest (mkRequest "GET" ("/projects/" ++ project ++ "/subscriptions")
                        (Some params) None)])%list
    ∧ ∀ k, params !! k =
        if decide (k = "pageSize") then SInt <$> page_size
        else if decide (k = "pageToken") then SStr <$> page_token
        else None.
Proof.
  exists (page_params page_size page_token).
  rewrite list_subscriptions_as_contract, list_contract_trace.
  split; [reflexivity | apply page_params_lookup].
Qed.

(** ** Failures while listing *)

Lemma list_contract_failure (coll project : string) (page_size : option Z)
    (page_token : option string) σ (e : exn) :
  (transport (mkRequest "GET" ("/projects/" ++ project ++ "/" ++ coll)
                (Some (page_params page_size page_token)) None)
     (self σ) (net (proc σ))).1.1 = Raise e →
  (list_contract transport coll project page_size page_token σ).1 = Raise e.
Proof.
  intros Hresp. unfold list_contract, M_bind. rewrite api_request_run, Hresp.
  reflexivity.
Qed.

Lemma list_contract_not_a_mapping (coll project : string) (page_size : option Z)
    (page_token : option string) σ (v : value) :
  (∀ d, v ≠ VDict d) →
  (transport (mkRequest "GET" ("/projects/" ++ project ++ "/" ++ coll)
                (Some (page_params page_size page_token)) None)
     (self σ) (net (proc σ))).1.1 = Ok v →
  (list_contract transport coll project page_size page_token σ).1 =
    Raise (AttributeError "get").
Proof.
  intros Hv Hresp. unfold list_contract, M_bind. rewrite api_request_run, Hresp.
  destruct v; try reflexivity. by destruct (Hv d).
Qed.

(** X3: A failure raised by the request primitive leaves [list_topics] and
    [list_subscriptions] as that same failure: neither method catches,
    wraps or replaces it. *)
Theorem listing_propagates_failure (project : string) (page_size : option Z)
    (page_token : option string) σ (e : exn) :
  ((transport (mkRequest "GET" ("/projects/" ++ project ++ "/topics")
                 (Some (page_params page_size page_token)) None)
      (self σ) (net (proc σ))).1.1 = Raise e →
   (list_topics transport project page_size page_token σ).1 = Raise e)
  ∧ ((transport (mkRequest "GET" ("/projects/" ++ project ++ "/subscriptions")
                   (Some (page_params page_size page_token)) None)
        (self σ) (net (proc σ))).1.1 = Raise e →
     (list_subscriptions transport project page_size page_token σ).1 = Raise e).
Proof.
  split; intros Hresp.
  - rewrite list_topics_as_contract. by apply list_contract_failure.
  - rewrite list_subscriptions_as_contract. by apply list_contract_failure.
Qed.

(** X4: A decoded response that is not a mapping has no [get]: both listing
    methods then raise [AttributeError], after the request has been made
    (it is on the trace, and the transport state is the one the request
    left). *)
Theorem listing_rejects_non_mapping (project : string) (page_size : option Z)
    (page_token : option string) σ (v : value) :
  (∀ d, v ≠ VDict d) →
  ((transport (mkRequest "GET" ("/projects/" ++ project ++ "/topics")
                 (Some (page_params page_size page_token)) None)
      (self σ) (net (proc σ))).1.1 = Ok v →
   (list_topics transport project page_size page_token σ).1 =
     Raise (AttributeError "get")
   ∧ issued (list_topics transport project page_size page_token) σ =
       Some (EvRequest (mkRequest "GET" ("/projects/" ++ project ++ "/topics")
                          (Some (page_params page_size page_token)) None)))
  ∧ ((transport (mkRequest "GET" ("/projects/" ++ project ++ "/subscriptions")
                   (Some (page_params page_size page_token)) None)
        (self σ) (net (proc σ))).1.1 = Ok v →
     (list_subscriptions transport project page_size page_token σ).1 =
       Raise (AttributeError "get")
     ∧ issued (list_subscriptions transport project page_size page_token) σ =
         Some (EvRequest (mkRequest "GET" ("/projects/" ++ project ++ "/subscriptions")
                            (Some (page_params page_size page_token)) None))).
Proof.
  intros Hv. unfold issued. split; intros Hresp.
  - rewrite list_topics_as_contract, list_contract_trace, last_snoc.
    split; [by eapply list_contract_not_a_mapping | reflexivity].
  - rewrite list_subscriptions_as_contract, list_contract_trace, last_snoc.
    split; [by eapply list_contract_not_a_mapping | reflexivity].
Qed.

(** ** The environment at construction *)

(** X6: The constructor depends on the environment through the emulator
    variable alone: in two processes whose environments agree on it, the
    same arguments construct the same connection. *)
Theorem Connection_init_reads_only_emulator cred h (url : option string)
    (p1 p2 : Proc Net) :
  environ p1 !! PUBSUB_EMULATOR = environ p2 !! PUBSUB_EMULATOR →
  (Connection_init PUBSUB_EMULATOR cred h url p1).1 =
    (Connection_init PUBSUB_EMULATOR cred h url p2).1.
Proof.
  intros Hagree.
  unfold Connection_init, JSONConnection_init, os_getenv, M_bind, M_ret.
  destruct url as [u|]; simpl; [reflexivity|].
  rewrite Hagree. by destruct (environ p2 !! PUBSUB_EMULATOR).
Qed.

(** ** URLs of a constructed connection *)

Lemma build_api_url_run (path : string) (qp : option (gmap string scalar))
    (base version : option string) σ :
  (build_api_url path qp base version σ).1 =
    Ok (default (api_base_url (self σ)) base ++ "/" ++ default "v1" version ++ path
        ++ (if decide (default ∅ qp = ∅) then ""
            else "?" ++ urlencode (default ∅ qp))).
Proof.
  assert (Hfmt :
    str_format API_URL_TEMPLATE
      (<["api_base_url" := default (api_base_url (self σ)) base]>
         (<["api_version" := default API_VERSION version]> (<["path" := path]> ∅)))
    = Ok (default (api_base_url (self σ)) base ++ "/" ++ default "v1" version ++ path)).
  { apply API_URL_TEMPLATE_filled; by simplify_map_eq. }
  unfold build_api_url, self_api_base_url, JSONConnection_build_api_url,
    M_bind, M_gets, M_ret, M_lift.
  destruct base as [b|]; simpl in *; rewrite Hfmt; simpl;
    (case_decide;
     [by rewrite append_nil_r
     |rewrite append_assoc; simpl; by rewrite append_assoc]).
Qed.

(** X7: A connection constructed without a base URL builds its URLs on the
    emulator host that was set when it was constructed, or on the public
    endpoint if none was; what the environment holds when the URL is
    built plays no part. *)
Theorem constructed_connection_urls cred h p σ (env : gmap string string)
    (path : string) (qp : option (gmap string scalar)) (version : option string) :
  constructed (Connection_init PUBSUB_EMULATOR cred h None p) = Some σ →
  (build_api_url path qp None version (with_environ env σ)).1 =
    Ok (match environ p !! PUBSUB_EMULATOR with
        | Some host => "http://" ++ host
        | None => "https://pubsub.googleapis.com"
        end ++ "/" ++ default "v1" version ++ path
        ++ (if decide (default ∅ qp = ∅) then ""
            else "?" ++ urlencode (default ∅ qp))).
Proof.
  intros Hσ. rewrite build_api_url_run.
  assert (Hbase : api_base_url (self (with_environ env σ)) =
                  match environ p !! PUBSUB_EMULATOR with
                  | Some host => "http://" ++ host
                  | None => "https://pubsub.googleapis.com"
                  end).
  { revert Hσ. unfold constructed, Connection_init, JSONConnection_init,
      os_getenv, M_bind, M_ret. simpl.
    destruct (environ p !! PUBSUB_EMULATOR); simpl; by intros [= <-]. }
  unfold default at 1. unfold from_option. by rewrite Hbase.
Qed.

(** ** The requests of the six methods *)

Lemma list_ascii_of_string_app (s1 s2 : string) :
  list_ascii_of_string (s1 ++ s2) =
    (list_ascii_of_string s1 ++ list_ascii_of_string s2)%list.
Proof. induction s1 as [|c s1 IH]; [done|]. simpl. by rewrite IH. Qed.

Lemma list_ascii_of_string_inj (s1 s2 : string) :
  list_ascii_of_string s1 = list_ascii_of_string s2 → s1 = s2.
Proof.
  intros Heq.
  rewrite <- (string_of_list_ascii_of_string s1), Heq.
  apply string_of_list_ascii_of_string.
Qed.

(** Two strings that end in suffixes of one length are equal only if
    the suffixes are equal and what precedes them is equal. *)
Lemma append_inj_suffix (s1 s2 t1 t2 : string) :
  length (list_ascii_of_string t1) = length (list_ascii_of_string t2) →
  s1 ++ t1 = s2 ++ t2 → s1 = s2 ∧ t1 = t2.
Proof.
  intros Hlen Heq. apply (f_equal list_ascii_of_string) in Heq.
  rewrite !list_ascii_of_string_app in Heq.
  apply app_inj_2 in Heq as [H1 H2]; [|done].
  split; by apply list_ascii_of_string_inj.
Qed.


Lemma issued_api_request (req : Request) σ :
  issued (api_request transport req) σ = Some (EvRequest req).
Proof. unfold issued. rewrite api_request_run. simpl. apply last_snoc. Qed.

Lemma issued_list_topics (project : string) (ps : option Z) (pt : option string) σ :
  issued (list_topics transport project ps pt) σ =
    Some (EvRequest (mkRequest "GET" ("/projects/" ++ project ++ "/topics")
                       (Some (page_params ps pt)) None)).
Proof.
  unfold issued.
  by rewrite list_topics_as_contract, list_contract_trace, last_snoc.
Qed.

Lemma issued_list_subscriptions (project : string) (ps : option Z)
    (pt : option string) σ :
  issued (list_subscriptions transport project ps pt) σ =
    Some (EvRequest (mkRequest "GET" ("/projects/" ++ project ++ "/subscriptions")
                       (Some (page_params ps pt)) None)).
Proof.
  unfold issued.
  by rewrite list_subscriptions_as_contract, list_contract_trace, last_snoc.
Qed.

Lemma issued_topic_create (topic_path : string) σ :
  issued (topic_create transport topic_path) σ =
    Some (EvRequest (mkRequest "PUT" ("/" ++ topic_path) None None)).
Proof.
  unfold issued, topic_create, M_bind, M_lift. simpl.
  rewrite append_nil_r, api_request_run. simpl. apply last_snoc.
Qed.

Lemma issued_topic_get (topic_path : string) σ :
  issued (topic_get transport topic_path) σ =
    Some (EvRequest (mkRequest "GET" ("/" ++ topic_path) None None)).
Proof.
  unfold issued, topic_get, M_bind, M_lift. simpl.
  rewrite append_nil_r, api_request_run. simpl. apply last_snoc.
Qed.

Lemma issued_topic_delete (topic_path : string) σ :
  issued (topic_delete transport topic_path) σ =
    Some (EvRequest (mkRequest "DELETE" ("/" ++ topic_path) None None)).
Proof.
  unfold issued, topic_delete, M_bind, M_lift. simpl.
  rewrite append_nil_r, api_request_run. simpl. apply last_snoc.
Qed.

Lemma issued_topic_publish (topic_path : string) (messages : value) σ :
  issued (topic_publish transport topic_path messages) σ =
    Some (EvRequest (mkRequest "POST" ("/" ++ topic_path ++ ":publish") None
                       (Some (VDict {[ "messages" := messages ]})))).
Proof.
  unfold issued, topic_publish, M_bind, M_lift. simpl.
  rewrite api_request_run. simpl. apply last_snoc.
Qed.

Lemma page_params_inj (ps1 ps2 : option Z) (pt1 pt2 : option string) :
  page_params ps1 pt1 = page_params ps2 pt2 → ps1 = ps2 ∧ pt1 = pt2.
Proof.
  intros Heq. split.
  - assert (H := f_equal (λ m : gmap string scalar, m !! "pageSize") Heq).
    simpl in H. rewrite !page_params_lookup in H. simpl in H.
    destruct ps1, ps2; simpl in H; congruence.
  - assert (H := f_equal (λ m : gmap string scalar, m !! "pageToken") Heq).
    simpl in H. rewrite !page_params_lookup in H. simpl in H.
    destruct pt1, pt2; simpl in H; congruence.
Qed.

Lemma same_event_same_request (r1 r2 : Request) :
  Some (EvRequest r1) = Some (EvRequest r2) → r1 = r2.
Proof. congruence. Qed.

(** X8: Whatever the project or topic path, empty ones included, the path of
    the request that each of the six methods makes begins with a slash,
    as the URL template needs it to. *)
Theorem request_paths_rooted (arg : string) (ps : option Z) (pt : option string)
    (messages : value) σ :
  Forall (λ ev, ∃ req, ev = Some (EvRequest req)
                       ∧ String.prefix "/" (path req) = true)
    [issued (list_topics transport arg ps pt) σ;
     issued (list_subscriptions transport arg ps pt) σ;
     issued (topic_create transport arg) σ;
     issued (topic_get transport arg) σ;
     issued (topic_delete transport arg) σ;
     issued (topic_publish transport arg messages) σ].
Proof.
  rewrite issued_list_topics, issued_list_subscriptions, issued_topic_create,
    issued_topic_get, issued_topic_delete, issued_topic_publish.
  repeat (constructor; [eexists; split; [reflexivity | by destruct arg]|]).
  constructor.
Qed.

(** X9: The request a method makes tells its arguments: two calls of one
    method that make the same request were given the same project, page
    size and page token, or the same topic path and messages. *)
Theorem requests_determine_arguments σ1 σ2 :
  (∀ (project1 project2 : string) ps1 ps2 pt1 pt2,
     issued (list_topics transport project1 ps1 pt1) σ1 =
       issued (list_topics transport project2 ps2 pt2) σ2 →
     project1 = project2 ∧ ps1 = ps2 ∧ pt1 = pt2)
  ∧ (∀ (project1 project2 : string) ps1 ps2 pt1 pt2,
       issued (list_subscriptions transport project1 ps1 pt1) σ1 =
         issued (list_subscriptions transport project2 ps2 pt2) σ2 →
       project1 = project2 ∧ ps1 = ps2 ∧ pt1 = pt2)
  ∧ (∀ t1 t2 : string,
       issued (topic_create transport t1) σ1 = issued (topic_create transport t2) σ2 →
       t1 = t2)
  ∧ (∀ t1 t2 : string,
       issued (topic_get transport t1) σ1 = issued (topic_get transport t2) σ2 →
       t1 = t2)
  ∧ (∀ t1 t2 : string,
       issued (topic_delete transport t1) σ1 = issued (topic_delete transport t2) σ2 →
       t1 = t2)
  ∧ (∀ (t1 t2 : string) (m1 m2 : value),
       issued (topic_publish transport t1 m1) σ1 =
         issued (topic_publish transport t2 m2) σ2 →
       t1 = t2 ∧ m1 = m2).
Proof.
  split; [|split; [|split; [|split; [|split]]]].
  - intros project1 project2 ps1 ps2 pt1 pt2.
    rewrite !issued_list_topics. intros [= Hpath Hparams].
    apply append_inj_suffix in Hpath as [-> _]; [|done].
    by apply page_params_inj in Hparams as [-> ->].
  - intros project1 project2 ps1 ps2 pt1 pt2.
    rewrite !issued_list_subscriptions. intros [= Hpath Hparams].
    apply append_inj_suffix in Hpath as [-> _]; [|done].
    by apply page_params_inj in Hparams as [-> ->].
  - intros t1 t2. rewrite !issued_topic_create. by intros [= ->].
  - intros t1 t2. rewrite !issued_topic_get. by intros [= ->].
  - intros t1 t2. rewrite !issued_topic_delete. by intros [= ->].
  - intros t1 t2 m1 m2. rewrite !issued_topic_publish. intros Heq.
    apply same_event_same_request in Heq.
    assert (Hpath := f_equal path Heq). assert (Hbody := f_equal data Heq).
    simpl in Hpath, Hbody. injection Hpath as Hpath.
    apply append_inj_suffix in Hpath as [-> _]; [|done].
    split; [done|].
    assert (H : ({[ "messages" := m1 ]} : gmap string value) !! "messages"
                = ({[ "messages" := m2 ]} : gmap string value) !! "messages").
    { congruence. }
    rewrite !lookup_singleton_eq in H. congruence.
Qed.




End Behaviour.

(** ** Instances *)

Lemma list_subscriptions_result_witness :
  (list_subscriptions
     (fixed_transport
        (Ok (VDict (<["subscriptions" := VList [ VStr "s1" ] ]>
                      (<["nextPageToken" := VStr "abc"]> ∅)))))
     "p" None (Some "t0") (sample_obj API_BASE_URL)).1 =
    Ok (VList [ VStr "s1" ], VStr "abc")
  ∧ (list_subscriptions (fixed_transport (Ok (VDict sample_listing)))
       "p" None None (sample_obj API_BASE_URL)).1 =
      Ok (VTuple [], VStr "abc").
Proof.
  split.
  - exact (list_subscriptions_result
             (fixed_transport
                (Ok (VDict (<["subscriptions" := VList [ VStr "s1" ] ]>
                              (<["nextPageToken" := VStr "abc"]> ∅)))))
             "p" None (Some "t0") (sample_obj API_BASE_URL) _ eq_refl).
  - exact (list_subscriptions_result (fixed_transport (Ok (VDict sample_listing)))
             "p" None None (sample_obj API_BASE_URL) sample_listing eq_refl).
Defined.

Lemma listing_propagates_failure_witness :
  (list_topics (fixed_transport (Raise (RequestError "503")))
     "p" (Some 5%Z) None (sample_obj API_BASE_URL)).1 = Raise (RequestError "503")
  ∧ (list_subscriptions (fixed_transport (Raise (RequestError "503")))
       "p" (Some 5%Z) None (sample_obj API_BASE_URL)).1 = Raise (RequestError "503").
Proof.
  split.
  - exact (proj1 (listing_propagates_failure
                    (fixed_transport (Raise (RequestError "503")))
                    "p" (Some 5%Z) None (sample_obj API_BASE_URL)
                    (RequestError "503")) eq_refl).
  - exact (proj2 (listing_propagates_failure
                    (fixed_transport (Raise (RequestError "503")))
                    "p" (Some 5%Z) None (sample_obj API_BASE_URL)
                    (RequestError "503")) eq_refl).
Defined.

Lemma listing_rejects_non_mapping_witness :
  (∀ d, VList [ VStr "projects/p/topics/t" ] ≠ VDict d)
  ∧ (list_topics (fixed_transport (Ok (VList [ VStr "projects/p/topics/t" ])))
       "p" None None (sample_obj API_BASE_URL)).1 = Raise (AttributeError "get").
Proof.
  split; [discriminate|].
  apply (proj1 (listing_rejects_non_mapping
                  (fixed_transport (Ok (VList [ VStr "projects/p/topics/t" ])))
                  "p" None None (sample_obj API_BASE_URL)
                  (VList [ VStr "projects/p/topics/t" ])
                  ltac:(discriminate))).
  reflexivity.
Defined.

Lemma Connection_init_reads_only_emulator_witness :
  environ (sample_proc (sample_environ "/root")) !! "PUBSUB_EMULATOR_HOST" =
    environ (sample_proc (sample_environ "/home/u")) !! "PUBSUB_EMULATOR_HOST"
  ∧ sample_environ "/root" ≠ sample_environ "/home/u"
  ∧ (Connection_init (Credentials := unit) (Http := unit) "PUBSUB_EMULATOR_HOST"
       None None None (sample_proc (sample_environ "/root"))).1 =
      (Connection_init "PUBSUB_EMULATOR_HOST"
         None None None (sample_proc (sample_environ "/home/u"))).1.
Proof.
  split; [reflexivity|]. split.
  - intros Heq.
    assert (H := f_equal (λ m : gmap string string, m !! "HOME") Heq).
    vm_compute in H. discriminate.
  - apply (Connection_init_reads_only_emulator "PUBSUB_EMULATOR_HOST" None None None
             (sample_proc (sample_environ "/root"))
             (sample_proc (sample_environ "/home/u"))).
    reflexivity.
Defined.

Lemma constructed_connection_urls_witness :
  constructed
    (Connection_init (Credentials := unit) (Http := unit) "PUBSUB_EMULATOR_HOST"
       None None None (sample_proc (sample_environ "/root"))) =
    Some (mkObj (mkConnection None None "http://localhost:8085")
            (mkProc (sample_environ "/root") 0 [EvGetenv "PUBSUB_EMULATOR_HOST"]))
  ∧ (build_api_url "/projects/p/topics" None None None
       (with_environ ∅
          (mkObj (mkConnection (Credentials := unit) (Http := unit) None None
                    "http://localhost:8085")
             (mkProc (sample_environ "/root") 0 [EvGetenv "PUBSUB_EMULATOR_HOST"])))).1 =
      Ok "http://localhost:8085/v1/projects/p/topics".
Proof.
  split; [reflexivity|].
  exact (constructed_connection_urls "PUBSUB_EMULATOR_HOST" None None
           (sample_proc (sample_environ "/root")) _ ∅ "/projects/p/topics"
           None None eq_refl).
Defined.

Lemma requests_determine_arguments_witness :
  issued (topic_publish (fixed_transport (Ok (VDict ∅))) "projects/p/topics/t"
            (VList [])) (sample_obj API_BASE_URL) =
    issued (topic_publish (fixed_transport (Ok (VDict ∅))) "projects/p/topics/t"
              (VList [])) (sample_obj "http://localhost:8085")
  ∧ "projects/p/topics/t" = "projects/p/topics/t" ∧ VList [] = VList [].
Proof.
  split; [reflexivity|].
  apply (proj2 (proj2 (proj2 (proj2 (proj2
           (requests_determine_arguments (fixed_transport (Ok (VDict ∅)))
              (sample_obj API_BASE_URL) (sample_obj "http://localhost:8085"))))))).
  reflexivity.
Defined.
